(** * kb-solaria: the development launcher ([tasks.py]) and the backend
      entry point ([run.py])

    [tasks.run_dev] is glue code over the operating system: it calls
    [os.path.exists], [subprocess.check_call], [subprocess.Popen],
    [time.sleep], [webbrowser.open], [Popen.terminate] and [Popen.wait].
    The embedding keeps the control flow of the function (sequencing,
    [try]/[except KeyboardInterrupt]/[finally]) and records every external
    call in a trace; what each call answers is read from an environment. *)

From Stdlib Require Import List String Ascii Bool Arith ZArith Lia.
Import ListNotations.
Open Scope string_scope.

(** ** Python outcomes *)

Module Py.

(** The exceptions the code can meet. *)
Inductive Exn : Type :=
| KeyboardInterrupt
| CalledProcessError (returncode : Z)
| OSError
| SystemExit (code : Z)
| OtherError.

(** How a computation ends: with a value, with an exception, or not at all
    (a blocking call that never comes back). *)
Inductive Res (A : Type) : Type :=
| Ok (a : A)
| Raise (e : Exn)
| Hang.
Arguments Ok {A} a.
Arguments Raise {A} e.
Arguments Hang {A}.

(** Exit status of the interpreter for a script whose last statement ends
    in the given way: 0 when it falls off the end, the code of a
    [SystemExit], 130 for an uncaught [KeyboardInterrupt] and 1 for any
    other uncaught exception. A script that hangs has no status. *)
Definition exit_status (r : Res unit) : option Z :=
  match r with
  | Ok _ => Some 0%Z
  | Raise (SystemExit c) => Some c
  | Raise KeyboardInterrupt => Some 130%Z
  | Raise _ => Some 1%Z
  | Hang => None
  end.

End Py.

(** ** tasks.py *)

Module Tasks.
Import Py.

(** The only process handle [run_dev] keeps is the one of the frontend. *)
Inductive Handle : Type := Frontend.

(** External calls, in the order [run_dev] makes them. *)
Inductive Event : Type :=
| PathExists (path : string)
| Print (msg : string)
| CheckCall (argv : list string) (shell : bool)
| Popen (argv : list string) (shell : bool)
| Sleep (secs : nat)
| WebOpen (url : string)
| Terminate (h : Handle)
| Kill (h : Handle)
| Wait (h : Handle).

(** What the outside world answers. Interrupts (Ctrl-C) surface in the
    blocking calls: the startup sleep, the browser call, the blocking
    [check_call]s and [frontend.wait()]. [print] and [terminate] return. *)
Record Env : Type := mkEnv {
  sys_executable : string;
  (** [os.path.exists("node_modules")] *)
  node_modules : bool;
  (** [check_call(argv)]: returns 0, raises, or blocks for ever *)
  on_check_call : list string -> Res unit;
  (** [Popen(["npm run dev"], shell=True)] *)
  on_popen : Res unit;
  (** [time.sleep(1)] *)
  on_sleep : Res unit;
  (** [webbrowser.open(url)]: its boolean answer is dropped by the code *)
  on_webopen : Res bool;
  (** seconds the frontend needs to exit once it has received SIGTERM;
      [None]: it never exits on SIGTERM *)
  frontend_exit_delay : option nat;
  (** seconds after the start of [frontend.wait()] at which a further
      interrupt arrives; [None]: no further interrupt *)
  interrupt_in_wait : option nat
}.

(** The state threaded through the calls. *)
Record World : Type := mkWorld {
  trace : list Event;      (* newest event last *)
  clock : nat;             (* seconds spent in sleep and wait *)
  term_sent : bool         (* SIGTERM was sent to the frontend *)
}.

Definition world0 : World := mkWorld [] 0 false.

Definition log (ev : Event) (w : World) : World :=
  mkWorld (trace w ++ [ev]) (clock w) (term_sent w).

Definition advance (n : nat) (w : World) : World :=
  mkWorld (trace w) (clock w + n) (term_sent w).

(** Computations: an environment reader, a state and the three endings. *)
Definition M (A : Type) : Type := Env -> World -> Res A * World.

Definition ret {A} (a : A) : M A := fun _ w => (Ok a, w).

Definition bind {A B} (m : M A) (k : A -> M B) : M B :=
  fun env w =>
    match m env w with
    | (Ok a, w') => k a env w'
    | (Raise e, w') => (Raise e, w')
    | (Hang, w') => (Hang, w')
    end.

Notation "x <- m ;; k" := (bind m (fun x => k))
  (at level 61, m at next level, right associativity).
Notation "m ;; k" := (bind m (fun _ => k))
  (at level 61, right associativity).

(** [try: body except KeyboardInterrupt: pass] *)
Definition try_except_KeyboardInterrupt (body : M unit) : M unit :=
  fun env w =>
    match body env w with
    | (Raise KeyboardInterrupt, w') => (Ok tt, w')
    | r => r
    end.

(** [try: body finally: fin]. The [finally] block runs after the body
    however it ended, unless the body never ends; an exception leaving the
    [finally] block replaces the ending of the body. *)
Definition try_finally (body : M unit) (fin : M unit) : M unit :=
  fun env w =>
    match body env w with
    | (Hang, w') => (Hang, w')
    | (r, w') =>
        match fin env w' with
        | (Ok _, w'') => (r, w'')
        | other => other
        end
    end.

(** *** The external calls *)

Definition emit (ev : Event) : M unit := fun _ w => (Ok tt, log ev w).

Definition os_path_exists (p : string) : M bool :=
  fun env w => (Ok (node_modules env), log (PathExists p) w).

Definition print (msg : string) : M unit := emit (Print msg).

Definition check_call (argv : list string) (shell : bool) : M unit :=
  fun env w => (on_check_call env argv, log (CheckCall argv shell) w).

Definition subprocess_Popen (argv : list string) (shell : bool) : M Handle :=
  fun env w =>
    (match on_popen env with
     | Ok _ => Ok Frontend
     | Raise e => Raise e
     | Hang => Hang
     end, log (Popen argv shell) w).

Definition time_sleep (secs : nat) : M unit :=
  fun env w =>
    (on_sleep env,
     match on_sleep env with
     | Ok _ => advance secs (log (Sleep secs) w)
     | _ => log (Sleep secs) w
     end).

Definition webbrowser_open (url : string) : M bool :=
  fun env w => (on_webopen env, log (WebOpen url) w).

(** [Popen.terminate()]: sends SIGTERM and returns at once. *)
Definition terminate (h : Handle) : M unit :=
  fun _ w => (Ok tt, mkWorld (trace w ++ [Terminate h]) (clock w) true).

(** [Popen.wait()] without a timeout: blocks until the child has exited or
    an interrupt arrives, whichever comes first. A child that was not sent
    SIGTERM keeps running. *)
Definition wait_outcome (delay intr : option nat) : Res unit * nat :=
  match delay, intr with
  | Some d, None => (Ok tt, d)
  | Some d, Some k => if Nat.ltb k d then (Raise KeyboardInterrupt, k) else (Ok tt, d)
  | None, Some k => (Raise KeyboardInterrupt, k)
  | None, None => (Hang, 0)
  end.

Definition wait (h : Handle) : M unit :=
  fun env w =>
    let delay := if term_sent w then frontend_exit_delay env else None in
    let '(r, dt) := wait_outcome delay (interrupt_in_wait env) in
    (r, advance dt (log (Wait h) w)).

(** *** run_dev *)

Definition nl : string := String (ascii_of_nat 10) EmptyString.

Definition frontend_url : string := "http://localhost:5173".

Definition npm_install_argv : list string := ["npm install"].
Definition npm_run_dev_argv : list string := ["npm run dev"].

(** The command handed to the watcher: [f"{sys.executable} run.py {config_file}"]. *)
Definition restart_command (exe config_file : string) : string :=
  exe ++ " run.py " ++ config_file.

Definition watch_argv (exe config_file : string) : list string :=
  [exe; "-m"; "watchfiles"; restart_command exe config_file; "kbunified"; "run.py"].

Definition msg_installing : string := "📦 [Frontend] Installing dependencies...".
Definition msg_starting (config_file : string) : string :=
  "🔌 [System] Starting Hybrid Dev Mode (Config: " ++ config_file ++ ")...".
Definition msg_backend : string :=
  nl ++ "🐍 [Backend] Starting API Server on port 4722 with HMR...".
Definition msg_opening : string := "🚀 [System] Opening Solaria...".
Definition msg_shutdown : string := nl ++ "🛑 Shutting down...".

Definition get_executable : M string := fun env w => (Ok (sys_executable env), w).

(** The [finally] block. *)
Definition shutdown (frontend : Handle) : M unit :=
  print msg_shutdown ;;
  terminate frontend ;;
  wait frontend.

(** The body of the [try]. *)
Definition dev_session (config_file : string) : M unit :=
  time_sleep 1 ;;
  print msg_backend ;;
  print msg_opening ;;
  _ <- webbrowser_open frontend_url ;;
  exe <- get_executable ;;
  check_call (watch_argv exe config_file) false.

Definition run_dev (config_file : string) : M unit :=
  present <- os_path_exists "node_modules" ;;
  (if negb present
   then print msg_installing ;; check_call npm_install_argv true
   else ret tt) ;;
  print (msg_starting config_file) ;;
  frontend <- subprocess_Popen npm_run_dev_argv true ;;
  try_finally
    (try_except_KeyboardInterrupt (dev_session config_file))
    (shutdown frontend).

(** Running the function from the initial world. *)
Definition exec (config_file : string) (env : Env) : Res unit * World :=
  run_dev config_file env world0.

Definition result (config_file : string) (env : Env) : Res unit :=
  fst (exec config_file env).

Definition events (config_file : string) (env : Env) : list Event :=
  trace (snd (exec config_file env)).

End Tasks.

(** ** run.py *)

Module RunPy.
Import Py.

(** What [parser.parse_known_args()] gives: the namespace with its one
    positional [config_file] and the list of arguments it did not
    recognise, or an exit of the parser (usage error, help). *)
Inductive Parsed : Type :=
| Namespace (config_file : string) (extras : list string)
| ParserExit (code : Z).

Definition backend_argv (config_file : string) : list string := [config_file].

Section Main.
(** [argparse] and the backend package [kbunified] are not part of the
    two files: the script is read over any parser and any backend.
    [backend_main argv] stands for [asyncio.run(backend_main(argv))]. *)
Variable parse_known_args : list string -> Parsed.
Variable backend_main : list string -> Res unit.

(** The script: how it ends, and the argument lists the backend was
    launched with. The unrecognised arguments are dropped. *)
Definition main (argv : list string) : Res unit * list (list string) :=
  match parse_known_args argv with
  | ParserExit c => (Raise (SystemExit c), [])
  | Namespace config_file _ =>
      let args := backend_argv config_file in
      (match backend_main args with
       | Raise KeyboardInterrupt => Ok tt      (* except KeyboardInterrupt: pass *)
       | r => r
       end, [args])
  end.
End Main.

(** A parser for examples: the first argument that does not start with a
    dash is the positional, the others are left over; no positional is a
    usage error (status 2). *)
Definition is_flag (s : string) : bool :=
  match s with
  | String c _ => Ascii.eqb c "-"%char
  | EmptyString => false
  end.

Fixpoint first_positional (seen argv : list string) : Parsed :=
  match argv with
  | [] => ParserExit 2
  | a :: rest =>
      if is_flag a then first_positional (seen ++ [a]) rest
      else Namespace a (seen ++ rest)
  end.

End RunPy.

(** ** Predicates on executions of [run_dev] *)

Module Sessions.
Import Py Tasks.

(** The dependency step passes: [node_modules] is there, or the install
    command returns. *)
Definition install_ok (env : Env) : Prop :=
  node_modules env = true \/ on_check_call env npm_install_argv = Ok tt.

(** Every call before the blocking watcher call returns. *)
Definition startup_ok (env : Env) : Prop :=
  install_ok env /\ on_popen env = Ok tt /\ on_sleep env = Ok tt /\
  exists b, on_webopen env = Ok b.

Definition watch_outcome (config_file : string) (env : Env) : Res unit :=
  on_check_call env (watch_argv (sys_executable env) config_file).

(** An interrupt arrives while the session is up, that is while
    [check_call] blocks on the watcher. *)
Definition interrupted_after_startup (config_file : string) (env : Env) : Prop :=
  startup_ok env /\ watch_outcome config_file env = Raise KeyboardInterrupt.

(** The errors of a process that cannot be started or that fails. *)
Definition is_process_error (e : Exn) : bool :=
  match e with
  | OSError | CalledProcessError _ => true
  | _ => false
  end.

(** A call of startup raises [e]: the install command, the start of the
    frontend, or the blocking watcher call. Only what surfaces as an
    exception is seen here: [Popen] with [shell=True] returns also when
    [npm] cannot be run, and what fails under the watcher stays inside
    the watcher. *)
Inductive startup_call_raises (config_file : string) (env : Env) (e : Exn) : Prop :=
| install_raises :
    node_modules env = false ->
    on_check_call env npm_install_argv = Raise e ->
    startup_call_raises config_file env e
| frontend_raises :
    install_ok env ->
    on_popen env = Raise e ->
    startup_call_raises config_file env e
| watcher_raises :
    startup_ok env ->
    watch_outcome config_file env = Raise e ->
    startup_call_raises config_file env e.

(** How [frontend.wait()] in the shutdown block ends: it returns when the
    frontend exits first, raises when an interrupt arrives first, and
    blocks for ever when neither happens. *)
Definition wait_ends (env : Env) : Res unit :=
  fst (wait_outcome (frontend_exit_delay env) (interrupt_in_wait env)).

(** The calls of a trace without the messages. *)
Definition is_print (ev : Event) : bool :=
  match ev with Print _ => true | _ => false end.

Definition steps (evs : list Event) : list Event :=
  filter (fun ev => negb (is_print ev)) evs.

Definition install_steps (env : Env) : list Event :=
  if node_modules env then [] else [CheckCall npm_install_argv true].

(** Position of the first event with a property. *)
Fixpoint position (p : Event -> bool) (evs : list Event) : option nat :=
  match evs with
  | [] => None
  | ev :: rest =>
      if p ev then Some 0
      else match position p rest with
           | Some n => Some (S n)
           | None => None
           end
  end.

(** The call that runs the backend under the watcher. *)
Definition is_backend_start (ev : Event) : bool :=
  match ev with
  | CheckCall argv _ => existsb (String.eqb "watchfiles") argv
  | _ => false
  end.

Definition is_browser_open (ev : Event) : bool :=
  match ev with WebOpen _ => true | _ => false end.

Definition is_frontend_terminate (ev : Event) : bool :=
  match ev with Terminate Frontend => true | _ => false end.

Definition is_kill (ev : Event) : bool :=
  match ev with Kill _ => true | _ => false end.



(** [before p q evs]: both kinds of event occur and the first [p] comes
    before the first [q]. *)
Definition before (p q : Event -> bool) (evs : list Event) : bool :=
  match position p evs, position q evs with
  | Some i, Some j => Nat.ltb i j
  | _, _ => false
  end.

(** The order of startup as claimed: the backend is started before the
    browser is opened. *)
Definition backend_then_browser (evs : list Event) : bool :=
  before is_backend_start is_browser_open evs.


(** The whole run takes no more than the startup second and a grace
    period. *)
Definition terminates_within (grace : nat) (config_file : string) (env : Env) : Prop :=
  match exec config_file env with
  | (Hang, _) => False
  | (_, w) => clock w <= 1 + grace
  end.

(** The same environment with another arrival of the interrupt during
    [frontend.wait()]. *)
Definition with_interrupt (k : option nat) (env : Env) : Env :=
  mkEnv (sys_executable env) (node_modules env) (on_check_call env)
        (on_popen env) (on_sleep env) (on_webopen env)
        (frontend_exit_delay env) k.

(** The interrupt arrives while the frontend has not exited yet. *)
Definition still_waiting (k : nat) (env : Env) : bool :=
  match frontend_exit_delay env with
  | Some d => Nat.ltb k d
  | None => true
  end.

(** Concrete environments. *)
Definition python : string := "/usr/bin/python3".

(** Everything starts; Ctrl-C while the watcher runs; the frontend exits
    two seconds after SIGTERM. *)
Definition env_clean : Env :=
  mkEnv python true
        (fun argv => if existsb (String.eqb "watchfiles") argv
                     then Raise KeyboardInterrupt else Ok tt)
        (Ok tt) (Ok tt) (Ok true) (Some 2) None.

(** Ctrl-C during the startup sleep. *)
Definition env_interrupt_in_sleep : Env :=
  mkEnv python true (fun _ => Ok tt)
        (Ok tt) (Raise KeyboardInterrupt) (Ok true) (Some 2) None.

(** As [env_clean], with a frontend that does not exit on SIGTERM. *)
Definition env_stubborn : Env :=
  mkEnv python true (on_check_call env_clean)
        (Ok tt) (Ok tt) (Ok true) None None.

(** As [env_clean], with a frontend that needs five seconds. *)
Definition env_slow : Env :=
  mkEnv python true (on_check_call env_clean)
        (Ok tt) (Ok tt) (Ok true) (Some 5) None.

(** The watcher cannot be run ([python -m watchfiles] exits with 1). *)
Definition env_no_watcher : Env :=
  mkEnv python false
        (fun argv => if existsb (String.eqb "watchfiles") argv
                     then Raise (CalledProcessError 1) else Ok tt)
        (Ok tt) (Ok tt) (Ok false) (Some 0) None.

End Sessions.

(** ** The restart loop and the debouncing of the watcher

    [run_dev] leaves the restart loop and the file watching to the
    [watchfiles] command it runs; neither is in [tasks.py] or [run.py].
    The two modules below follow the description of the Supervisor and of
    the FileWatcher. *)

Module FileWatcher.
Local Open Scope list_scope.

(** A filesystem modification as the watcher sees it. *)
Record Modification : Type := mkModification { mtime : Z; mpath : string }.

(** Modelled from the spec: ChangeEvent. *)
Record ChangeEvent : Type := mkChangeEvent {
  timestamp : Z;
  affectedPaths : list string
}.

(** Modelled from the spec: the debouncing of [FileWatcher.watch], done by
    [watchfiles] and absent from the source. A burst opens with a
    modification at [t0]; the modifications seen until [t0 + window] join
    it, and the burst is emitted as one event when the window closes. *)
Fixpoint debounce (window t0 : Z) (paths : list string) (ms : list Modification)
  : list ChangeEvent :=
  match ms with
  | [] => [mkChangeEvent (t0 + window) paths]
  | m :: rest =>
      if (mtime m <=? t0 + window)%Z
      then debounce window t0 (paths ++ [mpath m]) rest
      else mkChangeEvent (t0 + window) paths
             :: debounce window (mtime m) [mpath m] rest
  end.

(** The events for a chronological list of modifications. *)
Definition watch (window : Z) (ms : list Modification) : list ChangeEvent :=
  match ms with
  | [] => []
  | m :: rest => debounce window (mtime m) [mpath m] rest
  end.

(** All within the window opened at [t0]. *)
Definition within_window (window t0 : Z) (ms : list Modification) : Prop :=
  Forall (fun m => (t0 <= mtime m <= t0 + window)%Z) ms.

(** Each modification more than a window after the one before. *)
Fixpoint spaced (window prev : Z) (ms : list Modification) : Prop :=
  match ms with
  | [] => True
  | m :: rest => (prev + window < mtime m)%Z /\ spaced window (mtime m) rest
  end.

End FileWatcher.

Module Supervisor.
Local Open Scope list_scope.

(** Modelled from the spec: the states of a ChildProcess; the source has
    no process record of its own. *)
Inductive ProcState : Type := NotStarted | Running | Terminating | Exited.

Inductive Role : Type := FrontendRole | BackendRole.

(** Modelled from the spec: ChildProcess, with the handle it belongs to. *)
Record ChildProcess : Type := mkChild {
  role : Role;
  command : list string;
  pid : nat;
  state : ProcState
}.

(** Modelled from the spec: SupervisorState. *)
Inductive SupervisorState : Type :=
| SupStarting | SupRunning | SupReloading | SupShuttingDown | SupStopped.

(** The messages of the decision loop. *)
Inductive Input : Type :=
| Change (ev : FileWatcher.ChangeEvent)
| Interrupt.

(** Modelled from the spec: the Supervisor, of which the source has only the
    command line handed to [watchfiles]. It owns the two process handles
    (kept as the pids of the processes in the table of all processes ever
    started), counts the calls of [start] on the backend and records the
    exit status of the session. *)
Record Sup : Type := mkSup {
  phase : SupervisorState;
  procs : list ChildProcess;
  frontend : option nat;
  backend : option nat;
  next_pid : nat;
  attempts : nat;
  backend_starts : nat;
  watching : bool;
  status : option Z
}.

Definition is_backend (c : ChildProcess) : bool :=
  match role c with BackendRole => true | FrontendRole => false end.

Definition is_frontend (c : ChildProcess) : bool := negb (is_backend c).

Definition is_running (c : ChildProcess) : bool :=
  match state c with Running => true | _ => false end.

(** Running or Terminating. *)
Definition live (c : ChildProcess) : bool :=
  match state c with Running | Terminating => true | _ => false end.

Definition live_backends (s : Sup) : nat :=
  List.length (filter (fun c => is_backend c && live c) (procs s)).

Definition set_state (st : ProcState) (c : ChildProcess) : ChildProcess :=
  mkChild (role c) (command c) (pid c) st.

(** The graceful stop request reaches the running process with this pid. *)
Definition signal (p : nat) (ps : list ChildProcess) : list ChildProcess :=
  map (fun c => if Nat.eqb (pid c) p && is_running c
                then set_state Terminating c else c) ps.

(** The process with this pid has exited, by itself within the grace
    period or by forced termination after it. *)
Definition reap (p : nat) (ps : list ChildProcess) : list ChildProcess :=
  map (fun c => if Nat.eqb (pid c) p && live c
                then set_state Exited c else c) ps.

Definition with_procs (ps : list ChildProcess) (s : Sup) : Sup :=
  mkSup (phase s) ps (frontend s) (backend s) (next_pid s) (attempts s)
        (backend_starts s) (watching s) (status s).

Definition with_phase (ph : SupervisorState) (s : Sup) : Sup :=
  mkSup ph (procs s) (frontend s) (backend s) (next_pid s) (attempts s)
        (backend_starts s) (watching s) (status s).

Definition stop_watching (s : Sup) : Sup :=
  mkSup (phase s) (procs s) (frontend s) (backend s) (next_pid s) (attempts s)
        (backend_starts s) false (status s).

Definition stopped (code : Z) (s : Sup) : Sup :=
  mkSup SupStopped (procs s) (frontend s) (backend s) (next_pid s) (attempts s)
        (backend_starts s) (watching s) (Some code).

Definition has_running (p : nat) (ps : list ChildProcess) : bool :=
  existsb (fun c => Nat.eqb (pid c) p && is_running c) ps.

Section Machine.
(** Whether the n-th call of [start] of the session succeeds (otherwise
    it fails with SpawnError), and the two commands. *)
Variable spawn_ok : nat -> bool.
Variables frontend_cmd backend_cmd : list string.

(** Modelled from the spec: [ProcessHandle.start], absent from the source.
    On success the process gets a pid no earlier process had and is
    Running; on SpawnError the handle is empty. *)
Definition start (r : Role) (cmd : list string) (s : Sup) : Sup :=
  let ok := spawn_ok (attempts s) in
  let h := if ok then Some (next_pid s) else None in
  mkSup (phase s)
        (if ok then procs s ++ [mkChild r cmd (next_pid s) Running] else procs s)
        (match r with FrontendRole => h | BackendRole => frontend s end)
        (match r with BackendRole => h | FrontendRole => backend s end)
        (if ok then S (next_pid s) else next_pid s)
        (S (attempts s))
        (match r with BackendRole => S (backend_starts s)
                    | FrontendRole => backend_starts s end)
        (watching s) (status s).

(** Modelled from the spec: [ProcessHandle.terminate], absent from the
    source. If the process is Running it is asked to stop (Terminating)
    and has Exited when the call returns; on a handle that is empty or
    already Exited nothing happens. The states passed through are
    returned in order. *)
Definition terminate_steps (h : option nat) (s : Sup) : list Sup :=
  match h with
  | None => []
  | Some p =>
      if has_running p (procs s)
      then [with_procs (signal p (procs s)) s;
            with_procs (reap p (signal p (procs s))) s]
      else []
  end.

(** Modelled from the spec: the ShuttingDown state. Cancel the
    FileWatcher, terminate the backend, terminate the frontend, Stopped. *)
Definition shutdown_steps (code : Z) (s : Sup) : list Sup :=
  let s1 := stop_watching (with_phase SupShuttingDown s) in
  let tb := terminate_steps (backend s1) s1 in
  let s2 := last tb s1 in
  let tf := terminate_steps (frontend s2) s2 in
  let s3 := last tf s2 in
  [s1] ++ tb ++ tf ++ [stopped code s3].

(** Modelled from the spec: the Reloading state. Terminate the current
    backend, then start a fresh one with the same command; a failed
    start leaves the supervisor Running with no backend. *)
Definition reload_steps (s : Sup) : list Sup :=
  let s1 := with_phase SupReloading s in
  let tb := terminate_steps (backend s1) s1 in
  let s2 := last tb s1 in
  [s1] ++ tb ++ [with_phase SupRunning (start BackendRole backend_cmd s2)].

Definition init : Sup :=
  mkSup SupStarting [] None None 1 0 0 false None.

(** Modelled from the spec: the Starting state. The frontend first, then
    the backend; if either start fails the supervisor shuts down with a
    nonzero status. *)
Definition boot_steps : list Sup :=
  let s1 := start FrontendRole frontend_cmd init in
  match frontend s1 with
  | None => [init; s1] ++ shutdown_steps 1 s1
  | Some _ =>
      let s2 := start BackendRole backend_cmd s1 in
      match backend s2 with
      | None => [init; s1; s2] ++ shutdown_steps 1 s2
      | Some _ =>
          [init; s1; s2;
           mkSup SupRunning (procs s2) (frontend s2) (backend s2) (next_pid s2)
                 (attempts s2) (backend_starts s2) true (status s2)]
      end
  end.

Definition booted : Sup := last boot_steps init.

(** Modelled from the spec: one message in the decision loop (a change
    event reloads, an interrupt shuts down); messages outside Running are
    dropped. *)
Definition react (i : Input) (s : Sup) : list Sup :=
  match phase s, i with
  | SupRunning, Change _ => reload_steps s
  | SupRunning, Interrupt => shutdown_steps 0 s
  | _, _ => []
  end.

(** All the states the supervisor passes through on a sequence of
    messages. *)
Fixpoint supervise (inputs : list Input) (s : Sup) : list Sup :=
  match inputs with
  | [] => []
  | i :: rest =>
      let tr := react i s in
      tr ++ supervise rest (last tr s)
  end.

(** The state after a sequence of messages. *)
Fixpoint run (inputs : list Input) (s : Sup) : Sup :=
  match inputs with
  | [] => s
  | i :: rest => run rest (last (react i s) s)
  end.

Definition after (inputs : list Input) : Sup := run inputs booted.

End Machine.

Definition pids (s : Sup) : list nat := map pid (procs s).

(** Every backend process that is Running or Terminating is the Running
    process of the backend handle. *)
Definition owned (s : Sup) : Prop :=
  forall c, In c (procs s) -> is_backend c = true -> live c = true ->
            backend s = Some (pid c) /\ state c = Running.

(** Pids are handed out in increasing order, and no frontend process has
    the pid of the backend handle. *)
Definition fresh (s : Sup) : Prop :=
  (forall c, In c (procs s) -> pid c < next_pid s) /\
  (forall q, backend s = Some q \/ frontend s = Some q -> q < next_pid s) /\
  (forall c, In c (procs s) -> is_frontend c = true -> backend s <> Some (pid c)).

Definition running_ok (s : Sup) : Prop :=
  phase s = SupRunning /\ owned s /\ fresh s /\ live_backends s <= 1.

Definition frontends (s : Sup) : list ChildProcess := filter is_frontend (procs s).

(** The backend processes started so far: a process that was started
    stays in the table, whatever its state. *)
Definition backends_started (s : Sup) : nat :=
  List.length (filter is_backend (procs s)).

(** The calls of [start], from the n-th on, that spawn a process among
    the next [k] calls. *)
Definition spawned_among (spawn_ok : nat -> bool) (n k : nat) : nat :=
  List.length (filter spawn_ok (seq n k)).


Definition no_live_backend (ps : list ChildProcess) : Prop :=
  forall c, In c ps -> is_backend c = true -> live c = false.

End Supervisor.


(** ** Sample data *)

Module Samples.
Import FileWatcher.

Definition always_spawns : nat -> bool := fun _ => true.

(** The third call of [start] fails (the first restart), the others
    succeed. *)
Definition third_start_fails : nat -> bool := fun n => negb (Nat.eqb n 2).

Definition vite : list string := ["npm"; "run"; "dev"].
Definition api : list string := ["python"; "run.py"; "config.toml"].

Definition save1 : ChangeEvent := mkChangeEvent 100 ["kbunified/app.py"].
Definition save2 : ChangeEvent := mkChangeEvent 900 ["run.py"].

Definition write (t : Z) (path : string) : Modification := mkModification t path.

(** Only the two calls of [start] at startup succeed; every restart
    fails with SpawnError. *)
Definition boot_only : nat -> bool := fun n => Nat.ltb n 2.

Definition save3 : ChangeEvent := mkChangeEvent 1500 ["kbunified/app.py"].

End Samples.

(** ** Further cases of [run_dev] *)

Module Cases.
Import Py Tasks Sessions.

(** The [try] body ends with exception [e]: in the sleep, in the browser
    call, or in the blocking watcher call. *)
Definition body_raises (config_file : string) (env : Env) (e : Exn) : Prop :=
  on_sleep env = Raise e \/
  (on_sleep env = Ok tt /\ on_webopen env = Raise e) \/
  (on_sleep env = Ok tt /\ (exists b, on_webopen env = Ok b) /\
   watch_outcome config_file env = Raise e).

(** The same environment with another answer of [webbrowser.open]. *)
Definition with_webopen (r : Res bool) (env : Env) : Env :=
  mkEnv (sys_executable env) (node_modules env) (on_check_call env)
        (on_popen env) (on_sleep env) r
        (frontend_exit_delay env) (interrupt_in_wait env).

Definition is_wait (ev : Event) : bool :=
  match ev with Wait _ => true | _ => false end.

(** [node_modules] is missing and Ctrl-C arrives during [npm install]. *)
Definition env_install_interrupted : Env :=
  mkEnv python false (fun _ => Raise KeyboardInterrupt)
        (Ok tt) (Ok tt) (Ok true) (Some 2) None.

(** The frontend cannot be spawned. *)
Definition env_no_frontend : Env :=
  mkEnv python true (fun _ => Ok tt)
        (Raise OSError) (Ok tt) (Ok true) (Some 2) None.

(** The browser call raises. *)
Definition env_browser_error : Env :=
  mkEnv python true (fun _ => Ok tt)
        (Ok tt) (Ok tt) (Raise OtherError) (Some 2) None.

(** The watcher runs for ever. *)
Definition env_watching : Env :=
  mkEnv python true
        (fun argv => if existsb (String.eqb "watchfiles") argv
                     then Hang else Ok tt)
        (Ok tt) (Ok tt) (Ok true) (Some 2) None.

(** The watcher exits by itself with status 0. *)
Definition env_watcher_done : Env :=
  mkEnv python true (fun _ => Ok tt)
        (Ok tt) (Ok tt) (Ok true) (Some 3) None.

(** The watcher fails, and Ctrl-C arrives two seconds into the wait for a
    frontend that needs five. *)
Definition env_failure_then_interrupt : Env :=
  mkEnv python true
        (fun argv => if existsb (String.eqb "watchfiles") argv
                     then Raise (CalledProcessError 1) else Ok tt)
        (Ok tt) (Ok tt) (Ok true) (Some 5) (Some 2).

(** [npm] cannot be run. [Popen] with [shell=True] still returns: the
    shell is started and exits at once, so the frontend is gone when it
    is terminated. Ctrl-C ends the session. *)
Definition env_npm_missing : Env :=
  mkEnv python true
        (fun argv => if existsb (String.eqb "watchfiles") argv
                     then Raise KeyboardInterrupt else Ok tt)
        (Ok tt) (Ok tt) (Ok true) (Some 0) None.

End Cases.

(** * Properties *)

Section RunDevFacts.
Import Py Tasks Sessions.
Local Open Scope list_scope.

Local Arguments msg_installing : simpl never.
Local Arguments msg_starting : simpl never.
Local Arguments msg_backend : simpl never.
Local Arguments msg_opening : simpl never.
Local Arguments msg_shutdown : simpl never.
Local Arguments frontend_url : simpl never.
Local Arguments watch_argv : simpl never.
Local Arguments npm_install_argv : simpl never.
Local Arguments npm_run_dev_argv : simpl never.

(** Case analysis along the path an execution takes: each answer of the
    environment is split when the execution reaches it. *)
Ltac split_answer :=
  match goal with
  | |- context [match ?x with _ => _ end] =>
      lazymatch x with
      | context [match _ with _ => _ end] => fail
      | _ => first [ is_var x; destruct x | destruct x eqn:? ]
      end
  end.

Ltac unfold_run :=
  unfold events, result, terminates_within, exec, run_dev, dev_session, shutdown,
    try_finally, try_except_KeyboardInterrupt, bind, ret, print, emit,
    check_call, subprocess_Popen, time_sleep, webbrowser_open, terminate,
    wait, wait_outcome, os_path_exists, get_executable, log, advance, world0,
    watch_outcome in *.

Ltac run_paths := unfold_run; cbn in *; repeat (split_answer; cbn in * ).

(** Splitting a list that is known in full before a given suffix. *)
Ltac split_before_suffix :=
  match goal with
  | |- exists pre, ?l = pre ++ ?suf /\ _ =>
      exists (firstn (List.length l - List.length suf) l); split; [reflexivity|]
  | |- exists pre, ?l = pre ++ ?suf =>
      exists (firstn (List.length l - List.length suf) l); reflexivity
  end.

Example run_dev_clean_session :
  steps (events "config.toml" env_clean) =
    [PathExists "node_modules"; Popen ["npm run dev"%string] true; Sleep 1;
     WebOpen "http://localhost:5173";
     CheckCall ["/usr/bin/python3"%string; "-m"%string; "watchfiles"%string;
                "/usr/bin/python3 run.py config.toml"%string;
                "kbunified"%string; "run.py"%string] false;
     Terminate Frontend; Wait Frontend]
  /\ result "config.toml" env_clean = Ok tt.
Proof. split; reflexivity. Qed.

(** The shutdown block, whatever world it starts in. *)
Lemma shutdown_exec (env : Env) (w : World) :
  shutdown Frontend env w =
    (fst (wait_outcome (frontend_exit_delay env) (interrupt_in_wait env)),
     mkWorld (trace w ++ [Print msg_shutdown; Terminate Frontend; Wait Frontend])
             (clock w + snd (wait_outcome (frontend_exit_delay env) (interrupt_in_wait env)))
             true).
Proof.
  unfold shutdown, bind, print, emit, terminate, wait, log, advance. cbn.
  destruct (wait_outcome _ _) as [r dt]. cbn.
  now rewrite <- !app_assoc.
Qed.


(** C4, as stated: the backend would be started before the browser is
    opened. In a session where everything starts, the browser call comes
    first and the call that runs the backend after it. *)
Lemma startup_order_counterexample :
  backend_then_browser (events "config.toml" env_clean) = false /\
  before is_browser_open is_backend_start (events "config.toml" env_clean) = true.
Proof. split; reflexivity. Qed.

(** C4, amended: in every execution in which the calls of startup return,
    the calls are, in this order: the check for [node_modules] (with the
    install command when it is missing), the start of the frontend, the
    sleep of one second, the opening of the browser, and the blocking call
    that runs the backend under the watcher; only the two calls of the
    shutdown block can follow. *)
Theorem startup_order (config_file : string) (env : Env) :
  startup_ok env ->
  exists tail,
    steps (events config_file env) =
      [PathExists "node_modules"] ++ install_steps env ++
      [Popen npm_run_dev_argv true; Sleep 1; WebOpen frontend_url;
       CheckCall (watch_argv (sys_executable env) config_file) false] ++ tail
    /\ (tail = [] \/ tail = [Terminate Frontend; Wait Frontend]).
Proof.
  intros (Hi & Hp & Hs & b & Hw).
  destruct env as [exe nm occ pop slp web delay intr].
  unfold install_ok, install_steps in *. cbn in Hi, Hp, Hs, Hw |- *. subst pop slp web.
  destruct nm.
  - run_paths; eexists; (split; [reflexivity|]); auto.
  - destruct Hi as [Hi|Hi]; [discriminate|].
    unfold_run. cbn. rewrite Hi. cbn.
    repeat (split_answer; cbn); eexists; (split; [reflexivity|]); auto.
Qed.

Lemma startup_order_witness :
  exists tail,
    steps (events "config.toml" env_no_watcher) =
      [PathExists "node_modules"] ++ install_steps env_no_watcher ++
      [Popen npm_run_dev_argv true; Sleep 1; WebOpen frontend_url;
       CheckCall (watch_argv (sys_executable env_no_watcher) "config.toml") false] ++ tail
    /\ (tail = [] \/ tail = [Terminate Frontend; Wait Frontend]).
Proof.
  apply (startup_order "config.toml" env_no_watcher).
  repeat split; try reflexivity.
  - right; reflexivity.
  - exists false; reflexivity.
Defined.









(** C3, as stated: shutdown would never block longer than a grace period,
    a process that stays alive being killed. With a frontend that does not
    exit on SIGTERM the run never ends, whatever the grace period, and no
    kill is ever sent. *)
Lemma bounded_shutdown_counterexample :
  ~ (exists grace, terminates_within grace "config.toml" env_stubborn) /\
  result "config.toml" env_stubborn = Hang /\
  forallb (fun ev => negb (is_kill ev)) (events "config.toml" env_stubborn) = true.
Proof.
  split; [|split]; try reflexivity.
  intros [grace H]. exact H.
Qed.

(** C3, amended: when the session is interrupted, the shutdown sends
    SIGTERM to the frontend once, never kills it, and waits without a
    timeout: it returns exactly when the frontend has exited ([d] seconds
    after the signal) and never returns if the frontend does not exit. *)
Theorem shutdown_waits_for_exit (config_file : string) (env : Env) :
  interrupted_after_startup config_file env ->
  interrupt_in_wait env = None ->
  List.length (filter is_frontend_terminate (events config_file env)) = 1 /\
  forallb (fun ev => negb (is_kill ev)) (events config_file env) = true /\
  match frontend_exit_delay env with
  | Some d => exists w, exec config_file env = (Ok tt, w) /\ clock w = 1 + d
  | None => result config_file env = Hang
  end.
Proof.
  intros ((Hi & Hp & Hs & b & Hw) & Hk) Hn.
  destruct env as [exe nm occ pop slp web delay intr].
  unfold install_ok, watch_outcome in *. cbn in Hi, Hp, Hs, Hw, Hk, Hn |- *.
  subst pop slp web intr.
  destruct nm.
  - unfold_run. cbn. rewrite Hk. cbn.
    destruct delay; cbn; repeat split; eauto.
  - destruct Hi as [Hi|Hi]; [discriminate|].
    unfold_run. cbn. rewrite Hi. cbn. rewrite Hk. cbn.
    destruct delay; cbn; repeat split; eauto.
Qed.

Lemma shutdown_waits_for_exit_witness :
  List.length (filter is_frontend_terminate (events "config.toml" env_slow)) = 1 /\
  forallb (fun ev => negb (is_kill ev)) (events "config.toml" env_slow) = true /\
  exists w, exec "config.toml" env_slow = (Ok tt, w) /\ clock w = 1 + 5.
Proof.
  apply (shutdown_waits_for_exit "config.toml" env_slow).
  - repeat split; try reflexivity.
    + left; reflexivity.
    + exists true; reflexivity.
  - reflexivity.
Defined.

(** C9, as stated: a second interrupt during shutdown would change nothing
    and raise nothing. With a frontend that needs five seconds to exit, an
    interrupt two seconds into [frontend.wait()] makes [run_dev] end with
    KeyboardInterrupt, while without it [run_dev] returns. *)
Lemma second_interrupt_counterexample :
  result "config.toml" (with_interrupt (Some 2) env_slow) = Raise KeyboardInterrupt /\
  result "config.toml" (with_interrupt None env_slow) = Ok tt.
Proof. split; reflexivity. Qed.

(** C9, amended: a further interrupt during shutdown does not change the
    calls [run_dev] makes (the frontend has been sent its one SIGTERM and
    nothing follows the wait), but it is not suppressed. When
    [frontend.wait()] has been called and the interrupt arrives while the
    frontend has not exited yet, the wait is abandoned and [run_dev] ends
    with KeyboardInterrupt, whatever it would have ended with; in every
    other case the run ends as without the interrupt. *)
Theorem second_interrupt_effect (config_file : string) (env : Env) (k : nat) :
  events config_file (with_interrupt (Some k) env) =
    events config_file (with_interrupt None env) /\
  result config_file (with_interrupt (Some k) env) =
    if existsb Cases.is_wait (events config_file (with_interrupt None env))
       && still_waiting k env
    then Raise KeyboardInterrupt
    else result config_file (with_interrupt None env).
Proof.
  destruct env as [exe nm occ pop slp web delay intr].
  unfold with_interrupt, still_waiting. cbn.
  run_paths; split; reflexivity.
Qed.

(** C10: in every execution in which the frontend was started and which
    comes to an end (returning or raising, whatever the exception), the
    last calls are [terminate] and [wait] on the frontend. *)
Theorem frontend_always_terminated (config_file : string) (env : Env) :
  In (Popen npm_run_dev_argv true) (events config_file env) ->
  on_popen env = Ok tt ->
  result config_file env <> Hang ->
  exists pre,
    events config_file env =
      pre ++ [Print msg_shutdown; Terminate Frontend; Wait Frontend].
Proof.
  destruct env as [exe nm occ pop slp web delay intr]. cbn.
  intros H Hp. subst pop. revert H.
  run_paths; intros H Hr;
    try (exfalso; apply Hr; reflexivity);
    try (repeat (destruct H as [H|H]; [discriminate|]); contradiction);
    split_before_suffix.
Qed.

Lemma frontend_always_terminated_witness :
  result "config.toml" env_no_watcher = Raise (CalledProcessError 1) /\
  exists pre,
    events "config.toml" env_no_watcher =
      pre ++ [Print msg_shutdown; Terminate Frontend; Wait Frontend].
Proof.
  split; [reflexivity|].
  apply (frontend_always_terminated "config.toml" env_no_watcher).
  - vm_compute. do 4 right. left. reflexivity.
  - reflexivity.
  - vm_compute. discriminate.
Defined.


(** How [run_dev] ends after an interrupt in a session that is up: the
    way the wait for the frontend ends. *)
Lemma interrupted_session_ends (config_file : string) (env : Env) :
  interrupted_after_startup config_file env ->
  result config_file env = wait_ends env.
Proof.
  intros ((Hi & Hp & Hs & b & Hw) & Hk).
  destruct env as [exe nm occ pop slp web delay intr].
  unfold install_ok, watch_outcome, wait_ends in *. cbn in Hi, Hp, Hs, Hw, Hk |- *.
  subst pop slp web.
  destruct nm; [| destruct Hi as [Hi|Hi]; [discriminate|] ];
    unfold_run; cbn; rewrite ?Hi; cbn; rewrite Hk; cbn;
    repeat (split_answer; cbn); reflexivity.
Qed.

(** How [run_dev] ends when a call of startup raises a process error. *)
Lemma raised_startup_ends (config_file : string) (env : Env) (e : Exn) :
  startup_call_raises config_file env e ->
  is_process_error e = true ->
  exit_status (result config_file env) <> Some 0%Z /\
  (wait_ends env = Ok tt -> result config_file env = Raise e).
Proof.
  intros Hf He.
  destruct env as [exe nm occ pop slp web delay intr].
  destruct Hf as [Hn Hc | Hi Hp | (Hi & Hp & Hs & b & Hw) Hc];
    unfold install_ok, watch_outcome, wait_ends in *; cbn in *.
  - subst nm. unfold_run. cbn. rewrite Hc. cbn.
    split; [destruct e; discriminate | reflexivity].
  - subst pop. destruct nm; [| destruct Hi as [Hi|Hi]; [discriminate|] ];
      unfold_run; cbn; rewrite ?Hi; cbn;
      (split; [destruct e; discriminate | reflexivity]).
  - subst pop slp web.
    destruct nm; [| destruct Hi as [Hi|Hi]; [discriminate|] ];
      unfold_run; cbn; rewrite ?Hi; cbn; rewrite Hc;
      destruct e; try discriminate; cbn;
      repeat (split_answer; cbn);
      (split; [discriminate | first [ reflexivity | discriminate ] ]).
Qed.

(** C5, as stated: the status would be 0 whenever an interrupt arrives in
    a session that is up, and not 0 whenever startup fails. After such an
    interrupt, a second interrupt two seconds into the wait for a frontend
    that needs five gives status 130, and a frontend that never exits
    gives no status at all; and when [npm] cannot be run, which [Popen]
    with [shell=True] does not report, the session is ended by Ctrl-C
    with status 0. *)
Lemma exit_codes_counterexample :
  (interrupted_after_startup "config.toml" (with_interrupt (Some 2) env_slow) /\
   exit_status (result "config.toml" (with_interrupt (Some 2) env_slow)) = Some 130%Z) /\
  (interrupted_after_startup "config.toml" env_stubborn /\
   exit_status (result "config.toml" env_stubborn) = None) /\
  exit_status (result "config.toml" Cases.env_npm_missing) = Some 0%Z.
Proof.
  repeat split; try reflexivity; try (left; reflexivity); exists true; reflexivity.
Qed.

(** C5, amended: after an interrupt in a session that is up, [run_dev]
    ends the way the wait for the frontend ends, so its status is 0
    exactly when the frontend exits before any further interrupt. When
    the install command, [Popen] or the watcher call raises a process
    error, the status is never 0, and that error is what [run_dev] raises
    once the wait for the frontend (if it was started) has returned.
    [run.py] launches the backend with the configuration file and exits
    with 0 when the backend is interrupted, with 1 when it raises a
    process error. The status of [run_dev] is the one of a script that
    ends the way [run_dev] ends. *)
Theorem exit_codes (config_file : string) (env : Env) :
  (interrupted_after_startup config_file env ->
   result config_file env = wait_ends env /\
   (exit_status (result config_file env) = Some 0%Z <-> wait_ends env = Ok tt))
  /\ (forall e,
        startup_call_raises config_file env e ->
        is_process_error e = true ->
        exit_status (result config_file env) <> Some 0%Z /\
        (wait_ends env = Ok tt -> result config_file env = Raise e))
  /\ (forall parse backend argv c extras,
        parse argv = RunPy.Namespace c extras ->
        snd (RunPy.main parse backend argv) = [[c]] /\
        (backend [c] = Raise KeyboardInterrupt ->
         exit_status (fst (RunPy.main parse backend argv)) = Some 0%Z) /\
        (forall e, backend [c] = Raise e -> is_process_error e = true ->
                   exit_status (fst (RunPy.main parse backend argv)) = Some 1%Z)).
Proof.
  split; [|split].
  - intros Hi. rewrite (interrupted_session_ends _ _ Hi). split; [reflexivity|].
    unfold wait_ends, wait_outcome.
    destruct (frontend_exit_delay env) as [d|]; destruct (interrupt_in_wait env) as [k|];
      try destruct (Nat.ltb k d); cbn; split; intros H;
      try discriminate H; reflexivity.
  - apply raised_startup_ends.
  - intros parse backend argv c extras Hp.
    unfold RunPy.main, RunPy.backend_argv. rewrite Hp. cbn.
    split; [reflexivity|]. split.
    + intros ->. reflexivity.
    + intros e -> He. destruct e; try discriminate; reflexivity.
Qed.

Lemma exit_codes_witness :
  (result "config.toml" env_clean = wait_ends env_clean /\
   (exit_status (result "config.toml" env_clean) = Some 0%Z <->
    wait_ends env_clean = Ok tt)) /\
  (exit_status (result "config.toml" env_no_watcher) <> Some 0%Z /\
   (wait_ends env_no_watcher = Ok tt ->
    result "config.toml" env_no_watcher = Raise (CalledProcessError 1))) /\
  exit_status
    (fst (RunPy.main (RunPy.first_positional []) (fun _ => Raise KeyboardInterrupt)
                     ["--reload"%string; "config.toml"%string])) = Some 0%Z.
Proof.
  split; [|split].
  - apply (exit_codes "config.toml" env_clean).
    repeat split; try reflexivity.
    + left; reflexivity.
    + exists true; reflexivity.
  - apply (exit_codes "config.toml" env_no_watcher); [|reflexivity].
    apply watcher_raises; [|reflexivity].
    repeat split; try reflexivity.
    + right; reflexivity.
    + exists false; reflexivity.
  - apply (proj2 (proj2 (exit_codes "config.toml" env_clean))
             (RunPy.first_positional []) (fun _ => Raise KeyboardInterrupt)
             ["--reload"%string; "config.toml"%string] "config.toml"%string
             ["--reload"%string] eq_refl).
    reflexivity.
Defined.








(** ** Further properties of [run_dev] *)

Import Cases.

Ltac no_such_event H :=
  repeat (destruct H as [H|H]; [discriminate|]); contradiction.

(** X1: the install command is run exactly when [node_modules] is
    missing. *)
Theorem install_iff_missing (config_file : string) (env : Env) :
  In (CheckCall npm_install_argv true) (events config_file env) <->
  node_modules env = false.
Proof.
  destruct env as [exe nm occ pop slp web delay intr]. cbn [node_modules].
  destruct nm.
  - split; [|discriminate].
    run_paths; intros H; no_such_event H.
  - split; [reflexivity|]. intros _.
    run_paths; do 2 right; left; reflexivity.
Qed.

(** X2: when [node_modules] is missing and the install command raises,
    [run_dev] stops there with that exception, a KeyboardInterrupt
    included: the frontend is not started and nothing is cleaned up. *)
Theorem install_failure_aborts (config_file : string) (env : Env) (e : Exn) :
  node_modules env = false ->
  on_check_call env npm_install_argv = Raise e ->
  result config_file env = Raise e /\
  events config_file env =
    [PathExists "node_modules"; Print msg_installing;
     CheckCall npm_install_argv true].
Proof.
  destruct env as [exe nm occ pop slp web delay intr]. cbn.
  intros -> Hc. unfold_run. cbn. rewrite Hc. split; reflexivity.
Qed.

Lemma install_failure_aborts_witness :
  result "config.toml" env_install_interrupted = Raise KeyboardInterrupt /\
  events "config.toml" env_install_interrupted =
    [PathExists "node_modules"; Print msg_installing;
     CheckCall npm_install_argv true].
Proof.
  apply (install_failure_aborts "config.toml" env_install_interrupted KeyboardInterrupt);
    reflexivity.
Defined.

(** X3: when the frontend cannot be started, [run_dev] ends with the
    exception of [Popen]; it does not sleep, open the browser, run the
    watcher or call terminate or wait. *)
Theorem frontend_failure_aborts (config_file : string) (env : Env) (e : Exn) :
  install_ok env ->
  on_popen env = Raise e ->
  result config_file env = Raise e /\
  steps (events config_file env) =
    [PathExists "node_modules"] ++ install_steps env ++ [Popen npm_run_dev_argv true].
Proof.
  destruct env as [exe nm occ pop slp web delay intr].
  unfold install_ok, install_steps. cbn.
  intros Hi ->. destruct nm.
  - unfold_run. cbn. split; reflexivity.
  - destruct Hi as [Hi|Hi]; [discriminate|].
    unfold_run. cbn. rewrite Hi. cbn. split; reflexivity.
Qed.

Lemma frontend_failure_aborts_witness :
  result "config.toml" env_no_frontend = Raise OSError /\
  steps (events "config.toml" env_no_frontend) =
    [PathExists "node_modules"] ++ install_steps env_no_frontend ++
    [Popen npm_run_dev_argv true].
Proof.
  apply (frontend_failure_aborts "config.toml" env_no_frontend OSError).
  - left; reflexivity.
  - reflexivity.
Defined.

(** How [run_dev] ends when the [try] body raises and the shutdown block
    runs to its end. *)
Lemma body_exception_outcome (config_file : string) (env : Env) (e : Exn) (d : nat) :
  install_ok env ->
  on_popen env = Ok tt ->
  body_raises config_file env e ->
  frontend_exit_delay env = Some d ->
  interrupt_in_wait env = None ->
  result config_file env =
    match e with KeyboardInterrupt => Ok tt | _ => Raise e end /\
  In (Terminate Frontend) (events config_file env).
Proof.
  destruct env as [exe nm occ pop slp web delay intr].
  unfold install_ok, body_raises, watch_outcome. cbn.
  intros Hi -> Hb -> ->.
  assert (forall X : Prop,
            (nm = true -> X) ->
            (nm = false -> occ npm_install_argv = Ok tt -> X) -> X) as Hcase.
  { intros X H1 H2. destruct nm; [apply H1; reflexivity|].
    destruct Hi as [Hi|Hi]; [discriminate|]. now apply H2. }
  destruct Hb as [Hs | [(Hs & Hw) | (Hs & (b & Hw) & Hc)]]; subst slp; try subst web;
    apply Hcase; cbn; [intros -> | intros -> Hn | intros -> | intros -> Hn
                       | intros -> | intros -> Hn];
    unfold_run; cbn; rewrite ?Hn; cbn; rewrite ?Hc; cbn;
    (split; [destruct e; reflexivity|]);
    destruct e; cbn; repeat (first [ left; reflexivity | right ]).
Qed.


(** X4: a Ctrl-C during the startup sleep or the browser call is
    swallowed: the watcher is never run, the frontend is terminated and
    [run_dev] returns normally. *)
Theorem startup_interrupt_swallowed (config_file : string) (env : Env) (d : nat) :
  install_ok env ->
  on_popen env = Ok tt ->
  on_sleep env = Raise KeyboardInterrupt \/
  (on_sleep env = Ok tt /\ on_webopen env = Raise KeyboardInterrupt) ->
  frontend_exit_delay env = Some d ->
  interrupt_in_wait env = None ->
  result config_file env = Ok tt /\
  In (Terminate Frontend) (events config_file env) /\
  forallb (fun ev => negb (is_backend_start ev)) (events config_file env) = true.
Proof.
  intros Hi Hp Hb Hd Hn.
  assert (body_raises config_file env KeyboardInterrupt) as Hbr
    by (destruct Hb as [Hb|Hb]; [left|right; left]; exact Hb).
  destruct (body_exception_outcome _ _ _ _ Hi Hp Hbr Hd Hn) as [Hr Ht].
  refine (conj Hr (conj Ht _)). clear Hr Ht Hbr.
  destruct env as [exe nm occ pop slp web delay intr].
  unfold install_ok in Hi. cbn in Hi, Hp, Hb, Hd, Hn. subst pop delay intr.
  destruct nm.
  - destruct Hb as [-> | [-> ->]]; unfold_run; cbn; reflexivity.
  - destruct Hi as [Hi|Hi]; [discriminate|].
    destruct Hb as [-> | [-> ->]]; unfold_run; cbn; rewrite Hi; cbn; reflexivity.
Qed.

Lemma startup_interrupt_swallowed_witness :
  result "config.toml" env_interrupt_in_sleep = Ok tt /\
  In (Terminate Frontend) (events "config.toml" env_interrupt_in_sleep) /\
  forallb (fun ev => negb (is_backend_start ev))
          (events "config.toml" env_interrupt_in_sleep) = true.
Proof.
  apply (startup_interrupt_swallowed "config.toml" env_interrupt_in_sleep 2);
    try reflexivity.
  - left; reflexivity.
  - left; reflexivity.
Defined.

(** X5: any other exception of the [try] body (from the sleep, the
    browser call or the watcher call, a nonzero exit of the watcher
    included) leaves [run_dev] unchanged once the frontend has been
    terminated and waited for. *)
Theorem body_errors_propagate (config_file : string) (env : Env) (e : Exn) (d : nat) :
  install_ok env ->
  on_popen env = Ok tt ->
  body_raises config_file env e ->
  e <> KeyboardInterrupt ->
  frontend_exit_delay env = Some d ->
  interrupt_in_wait env = None ->
  result config_file env = Raise e /\
  In (Terminate Frontend) (events config_file env).
Proof.
  intros Hi Hp Hb He Hd Hn.
  destruct (body_exception_outcome _ _ _ _ Hi Hp Hb Hd Hn) as [Hr Ht].
  split; [|exact Ht]. rewrite Hr. destruct e; try reflexivity. now contradiction He.
Qed.

Lemma body_errors_propagate_witness :
  result "config.toml" env_browser_error = Raise OtherError /\
  In (Terminate Frontend) (events "config.toml" env_browser_error).
Proof.
  apply (body_errors_propagate "config.toml" env_browser_error OtherError 2);
    try reflexivity.
  - left; reflexivity.
  - right; left; split; reflexivity.
  - discriminate.
Defined.

(** X6: the boolean answer of [webbrowser.open] is not looked at: a
    browser that could not be opened changes neither the calls nor the
    ending of [run_dev]. *)
Theorem browser_answer_ignored (config_file : string) (env : Env) (b b' : bool) :
  exec config_file (with_webopen (Ok b) env) =
  exec config_file (with_webopen (Ok b') env).
Proof.
  destruct env as [exe nm occ pop slp web delay intr].
  unfold with_webopen. cbn. run_paths; reflexivity.
Qed.

(** X7: the watcher is run exactly when every call before it returned:
    the dependency step, the start of the frontend, the sleep and the
    browser call. *)
Theorem watcher_started_iff (config_file : string) (env : Env) :
  In (CheckCall (watch_argv (sys_executable env) config_file) false)
     (events config_file env) <->
  startup_ok env.
Proof.
  split.
  - destruct env as [exe nm occ pop slp web delay intr].
    unfold startup_ok, install_ok. cbn [sys_executable node_modules on_check_call
                                        on_popen on_sleep on_webopen].
    destruct nm; run_paths; intros H; try (no_such_event H);
      repeat match goal with u : unit |- _ => destruct u end;
      (split; [first [ left; reflexivity | right; reflexivity ] |]);
      repeat split; eexists; reflexivity.
  - intros Hs. destruct (startup_order config_file env Hs) as (tail & Ht & _).
    assert (In (CheckCall (watch_argv (sys_executable env) config_file) false)
               (steps (events config_file env))) as Hin.
    { rewrite Ht. apply in_or_app. right. apply in_or_app. right.
      apply in_or_app. left. cbn. auto. }
    unfold steps in Hin. now apply filter_In in Hin.
Qed.

(** X8: the frontend is only ever terminated after it was started: a
    terminate call implies that the dependency step passed and [Popen]
    returned. *)
Theorem terminate_only_if_started (config_file : string) (env : Env) :
  In (Terminate Frontend) (events config_file env) ->
  install_ok env /\ on_popen env = Ok tt.
Proof.
  destruct env as [exe nm occ pop slp web delay intr].
  unfold install_ok. cbn [node_modules on_check_call on_popen].
  destruct nm; run_paths; intros H; try (no_such_event H);
    repeat match goal with u : unit |- _ => destruct u end;
    (split; [first [ left; reflexivity | right; reflexivity ] | reflexivity ]).
Qed.

Lemma terminate_only_if_started_witness :
  install_ok env_clean /\ on_popen env_clean = Ok tt.
Proof.
  apply (terminate_only_if_started "config.toml" env_clean).
  vm_compute. do 9 right. left. reflexivity.
Defined.


(** Both ways for the dependency step to pass. *)
Ltac install_cases Hi nm :=
  destruct nm; [| destruct Hi as [Hi|Hi]; [discriminate|] ].

(** X9: while the watcher call blocks, [run_dev] blocks with it and the
    frontend is left alone: no terminate and no wait is issued. *)
Theorem watcher_blocks (config_file : string) (env : Env) :
  startup_ok env ->
  watch_outcome config_file env = Hang ->
  result config_file env = Hang /\
  forallb (fun ev => negb (is_frontend_terminate ev) && negb (is_wait ev))
          (events config_file env) = true.
Proof.
  destruct env as [exe nm occ pop slp web delay intr].
  unfold startup_ok, install_ok, watch_outcome. cbn.
  intros (Hi & -> & -> & b & ->) Hc.
  install_cases Hi nm; unfold_run; cbn; rewrite ?Hi; cbn; rewrite Hc; cbn;
    split; reflexivity.
Qed.

Lemma watcher_blocks_witness :
  result "config.toml" env_watching = Hang /\
  forallb (fun ev => negb (is_frontend_terminate ev) && negb (is_wait ev))
          (events "config.toml" env_watching) = true.
Proof.
  apply (watcher_blocks "config.toml" env_watching).
  - repeat split; try reflexivity.
    + left; reflexivity.
    + exists true; reflexivity.
  - reflexivity.
Defined.

(** X10: an interrupt that arrives while [frontend.wait()] is still
    blocking replaces whatever the watcher call raised: [run_dev] ends
    with KeyboardInterrupt and the exception of the watcher is lost. *)
Theorem cleanup_interrupt_masks_error
    (config_file : string) (env : Env) (e : Exn) (k : nat) :
  startup_ok env ->
  watch_outcome config_file env = Raise e ->
  interrupt_in_wait env = Some k ->
  still_waiting k env = true ->
  result config_file env = Raise KeyboardInterrupt.
Proof.
  destruct env as [exe nm occ pop slp web delay intr].
  unfold startup_ok, install_ok, watch_outcome, still_waiting. cbn.
  intros (Hi & -> & -> & b & ->) Hc -> Hw.
  install_cases Hi nm; unfold_run; cbn; rewrite ?Hi; cbn; rewrite Hc; cbn;
    destruct delay as [d|]; cbn; rewrite ?Hw; destruct e; reflexivity.
Qed.

Lemma cleanup_interrupt_masks_error_witness :
  result "config.toml" env_failure_then_interrupt = Raise KeyboardInterrupt.
Proof.
  apply (cleanup_interrupt_masks_error "config.toml" env_failure_then_interrupt
           (CalledProcessError 1) 2); try reflexivity.
  repeat split; try reflexivity.
  - left; reflexivity.
  - exists true; reflexivity.
Defined.

(** X11: when the watcher exits by itself with status 0, the session
    ends: the frontend is terminated and waited for, and [run_dev] returns
    normally, one second of sleep plus the exit delay of the frontend
    after it started. *)
Theorem watcher_exit_ends_session (config_file : string) (env : Env) (d : nat) :
  startup_ok env ->
  watch_outcome config_file env = Ok tt ->
  frontend_exit_delay env = Some d ->
  interrupt_in_wait env = None ->
  exists w, exec config_file env = (Ok tt, w) /\ clock w = 1 + d /\
            exists pre, trace w = pre ++ [Print msg_shutdown; Terminate Frontend;
                                          Wait Frontend].
Proof.
  destruct env as [exe nm occ pop slp web delay intr].
  unfold startup_ok, install_ok, watch_outcome. cbn.
  intros (Hi & -> & -> & b & ->) Hc -> ->.
  install_cases Hi nm; unfold_run; cbn; rewrite ?Hi; cbn; rewrite Hc; cbn;
    eexists; (split; [reflexivity|]); (split; [reflexivity|]); cbn;
    split_before_suffix.
Qed.

Lemma watcher_exit_ends_session_witness :
  exists w, exec "config.toml" env_watcher_done = (Ok tt, w) /\ clock w = 1 + 3 /\
            exists pre, trace w = pre ++ [Print msg_shutdown; Terminate Frontend;
                                          Wait Frontend].
Proof.
  apply (watcher_exit_ends_session "config.toml" env_watcher_done 3); try reflexivity.
  repeat split; try reflexivity.
  - left; reflexivity.
  - exists true; reflexivity.
Defined.

(** ** Further properties of [run.py] *)

(** X12: the arguments [run.py] does not recognise have no effect: two
    command lines with the same configuration file launch the backend in
    the same way and end in the same way. *)
Theorem extras_ignored
    (parse : list string -> RunPy.Parsed) (backend : list string -> Res unit)
    (argv1 argv2 : list string) (c : string) (extras1 extras2 : list string) :
  parse argv1 = RunPy.Namespace c extras1 ->
  parse argv2 = RunPy.Namespace c extras2 ->
  RunPy.main parse backend argv1 = RunPy.main parse backend argv2.
Proof.
  intros H1 H2. unfold RunPy.main. now rewrite H1, H2.
Qed.

Lemma extras_ignored_witness :
  RunPy.main (RunPy.first_positional []) (fun _ => Ok tt) ["config.toml"%string] =
  RunPy.main (RunPy.first_positional []) (fun _ => Ok tt)
             ["--reload"%string; "config.toml"%string; "--static-dir=dist"%string].
Proof.
  apply (extras_ignored _ _ _ _ "config.toml"%string []
           ["--reload"%string; "--static-dir=dist"%string]); reflexivity.
Defined.



(** X14: the backend is launched at most once, and not at all exactly
    when the parser exits (usage error or help), in which case [run.py]
    ends with the exit of the parser. *)
Theorem backend_launched_iff_parsed
    (parse : list string -> RunPy.Parsed) (backend : list string -> Res unit)
    (argv : list string) :
  List.length (snd (RunPy.main parse backend argv)) <= 1 /\
  (snd (RunPy.main parse backend argv) = [] <->
   exists code, parse argv = RunPy.ParserExit code /\
                fst (RunPy.main parse backend argv) = Raise (SystemExit code)).
Proof.
  unfold RunPy.main. destruct (parse argv) as [c extras|code]; cbn.
  - split; [lia|]. split; [discriminate|]. intros (code & H & _). discriminate.
  - split; [lia|]. split; [|reflexivity]. intros _. now exists code.
Qed.

End RunDevFacts.

Section SupervisorFacts.
Import Supervisor.
Local Open Scope list_scope.

Variable spawn_ok : nat -> bool.
Variables frontend_cmd backend_cmd : list string.


Lemma live_backends_none (ps : list ChildProcess) :
  (forall c, In c ps -> is_backend c = true -> live c = false) ->
  List.length (filter (fun c => is_backend c && live c) ps) = 0.
Proof.
  induction ps as [|c ps IH]; intros H; [reflexivity|].
  cbn. destruct (is_backend c) eqn:Hb; cbn.
  - rewrite (H c (or_introl eq_refl) Hb). apply IH. intros; apply H; auto. now right.
  - apply IH. intros; apply H; auto. now right.
Qed.

Lemma count_after_map (f : ChildProcess -> bool) (g : ChildProcess -> ChildProcess)
      (ps : list ChildProcess) :
  (forall c, f (g c) = f c) ->
  List.length (filter f (map g ps)) = List.length (filter f ps).
Proof.
  intros H. induction ps as [|c ps IH]; [reflexivity|].
  cbn. rewrite H. destruct (f c); cbn; now rewrite IH.
Qed.

(** A stop request changes no count of live processes. *)
Lemma live_backends_signal (p : nat) (ps : list ChildProcess) :
  List.length (filter (fun c => is_backend c && live c) (signal p ps)) =
  List.length (filter (fun c => is_backend c && live c) ps).
Proof.
  apply count_after_map. intros [r cmd q st].
  unfold is_running, is_backend, live; cbn.
  destruct (Nat.eqb q p); destruct st; reflexivity.
Qed.

(** Once the process of the backend handle has exited, no backend is
    live. *)
Lemma reaped_no_live (s : Sup) (p : nat) :
  owned s -> backend s = Some p ->
  forall c, In c (reap p (signal p (procs s))) ->
            is_backend c = true -> live c = false.
Proof.
  intros Ho Hb c Hin Hbk.
  unfold reap, signal in Hin. rewrite map_map in Hin.
  apply in_map_iff in Hin as (c0 & <- & Hin0).
  specialize (Ho c0 Hin0). clear Hin0. revert Ho Hbk.
  destruct c0 as [r cmd q st].
  unfold is_backend, is_running, live, set_state; cbn.
  destruct r; destruct st; cbn;
    destruct (Nat.eqb q p) eqn:E; cbn; rewrite ?E; cbn;
    intros Ho Hbk; try discriminate; try reflexivity;
    destruct (Ho eq_refl eq_refl) as [Hq Hst]; try discriminate.
  rewrite Hb in Hq. injection Hq as ->. rewrite Nat.eqb_refl in E. discriminate.
Qed.

(** With no running process behind the handle, no backend is live. *)
Lemma idle_no_live (s : Sup) :
  owned s ->
  match backend s with
  | Some p => has_running p (procs s) = false
  | None => True
  end ->
  forall c, In c (procs s) -> is_backend c = true -> live c = false.
Proof.
  intros Ho Hh c Hin Hbk.
  destruct (live c) eqn:Hl; [|reflexivity].
  destruct (Ho c Hin Hbk Hl) as [Hb Hst].
  rewrite Hb in Hh.
  assert (has_running (pid c) (procs s) = true) as Hr.
  { unfold has_running. apply existsb_exists. exists c. split; [assumption|].
    rewrite Nat.eqb_refl. unfold is_running. now rewrite Hst. }
  congruence.
Qed.


Lemma filter_after_map (f : ChildProcess -> bool) (g : ChildProcess -> ChildProcess)
      (ps : list ChildProcess) :
  (forall c, f (g c) = f c) ->
  (forall c, In c ps -> f c = true -> g c = c) ->
  filter f (map g ps) = filter f ps.
Proof.
  intros Hf. induction ps as [|c ps IH]; intros Hg; [reflexivity|].
  cbn. rewrite Hf. destruct (f c) eqn:E.
  - rewrite (Hg c (or_introl eq_refl) E). f_equal. apply IH. intros; apply Hg; auto. now right.
  - apply IH. intros; apply Hg; auto. now right.
Qed.

(** Stopping the process behind the backend handle leaves the frontend
    processes and all pids as they are. *)
Lemma stop_frame (s : Sup) (p : nat) :
  fresh s -> backend s = Some p ->
  filter is_frontend (reap p (signal p (procs s))) = filter is_frontend (procs s) /\
  filter is_frontend (signal p (procs s)) = filter is_frontend (procs s) /\
  map pid (reap p (signal p (procs s))) = map pid (procs s).
Proof.
  intros (_ & _ & Hsep) Hb.
  assert (forall c, In c (procs s) -> is_frontend c = true -> Nat.eqb (pid c) p = false) as Hne.
  { intros c Hin Hf. apply Nat.eqb_neq. intros E. apply (Hsep c Hin Hf). now rewrite E. }
  unfold reap, signal. rewrite !map_map. repeat split.
  - apply filter_after_map.
    + intros [r cmd q st]. unfold is_frontend, is_backend, is_running, live, set_state; cbn.
      destruct st; destruct (Nat.eqb q p) eqn:E; cbn; rewrite ?E; reflexivity.
    + intros c Hin Hf. cbn beta. rewrite (Hne c Hin Hf). cbn. now rewrite (Hne c Hin Hf).
  - apply filter_after_map.
    + intros [r cmd q st]. unfold is_frontend, is_backend, is_running, set_state; cbn.
      destruct st; cbn; destruct (Nat.eqb q p); reflexivity.
    + intros c Hin Hf. cbn beta. now rewrite (Hne c Hin Hf).
  - apply map_ext. intros [r cmd q st]. unfold is_running, live, set_state; cbn.
    destruct st; destruct (Nat.eqb q p) eqn:E; cbn; rewrite ?E; reflexivity.
Qed.

(** What the termination of the backend in a reload leaves behind. *)
Lemma backend_stopped (s : Sup) :
  running_ok s ->
  let s1 := with_phase SupReloading s in
  let tb := terminate_steps (backend s1) s1 in
  let s2 := last tb s1 in
  Forall (fun t => live_backends t <= 1 /\ frontends t = frontends s /\
                   frontend t = frontend s) (s1 :: tb) /\
  (forall c, In c (procs s2) -> is_backend c = true -> live c = false) /\
  map pid (procs s2) = map pid (procs s) /\
  frontends s2 = frontends s /\
  frontend s2 = frontend s /\ backend s2 = backend s /\
  next_pid s2 = next_pid s /\ attempts s2 = attempts s /\
  backend_starts s2 = backend_starts s.
Proof.
  intros (Hph & Ho & Hfr & Hle). cbn zeta.
  unfold terminate_steps. cbn [backend with_phase].

  destruct (backend s) as [p|] eqn:Hb.
  - cbn [procs with_phase].
    destruct (has_running p (procs s)) eqn:Hr.
    + destruct (stop_frame s p Hfr Hb) as (F1 & F2 & F3).
      cbn [last]. unfold frontends, live_backends.
      cbn [procs frontend backend next_pid attempts backend_starts with_procs with_phase].
      repeat (first [ apply Forall_nil | apply Forall_cons | split ]);
        cbn [procs frontend backend next_pid attempts backend_starts with_procs with_phase];
        auto.
      * now rewrite live_backends_signal.
      * rewrite live_backends_none; [lia|]. now apply reaped_no_live.
      * now apply reaped_no_live.
    + cbn [last]. unfold frontends, live_backends.
      cbn [procs frontend backend next_pid attempts backend_starts with_procs with_phase].
      repeat (first [ apply Forall_nil | apply Forall_cons | split ]); auto.
      apply idle_no_live; auto. now rewrite Hb.
  - cbn [last]. unfold frontends, live_backends.
    cbn [procs frontend backend next_pid attempts backend_starts with_procs with_phase].
    repeat (first [ apply Forall_nil | apply Forall_cons | split ]); auto.
    apply idle_no_live; auto. now rewrite Hb.
Qed.


(** One reload: the states passed through, and the state it ends in. *)
Lemma reload_ok (s : Sup) :
  running_ok s ->
  let s' := last (reload_steps spawn_ok backend_cmd s) s in
  Forall (fun t => live_backends t <= 1 /\ frontends t = frontends s /\
                   frontend t = frontend s)
         (reload_steps spawn_ok backend_cmd s) /\
  running_ok s' /\
  backend_starts s' = S (backend_starts s) /\
  match backend s' with
  | Some p => ~ In p (pids s) /\ backend s <> Some p /\ frontend s' <> Some p
  | None => spawn_ok (attempts s) = false
  end.
Proof.
  intros Hok.
  destruct (backend_stopped s Hok) as (Htb & Hnl & Hpids & Hfs & Hf & Hb & Hn & Ha & Hbs).
  destruct Hok as (Hph & Ho & (Hlt & Hh & Hsep) & Hle).
  cbn zeta in *. unfold reload_steps.
  set (s1 := with_phase SupReloading s) in *.
  set (tb := terminate_steps (backend s1) s1) in *.
  set (s2 := last tb s1) in *.
  change ([s1] ++ tb ++ [with_phase SupRunning (start spawn_ok BackendRole backend_cmd s2)])
    with ((s1 :: tb) ++ [with_phase SupRunning (start spawn_ok BackendRole backend_cmd s2)]).
  rewrite last_last.
  assert (List.length (filter (fun c => is_backend c && live c) (procs s2)) = 0) as H0
    by now apply live_backends_none.
  assert (forall c, In c (procs s2) -> pid c < next_pid s) as Hlt2.
  { intros c Hin. apply (in_map pid) in Hin. rewrite Hpids in Hin.
    apply in_map_iff in Hin as (c0 & <- & Hin0). now apply Hlt. }
  unfold start, with_phase, running_ok, owned, fresh, live_backends, frontends, pids.
  cbn [phase procs frontend backend next_pid attempts backend_starts watching status].
  rewrite Ha, Hn, Hf, Hbs.
  destruct (spawn_ok (attempts s)) eqn:Hs.
  - split; [|split; [|split]].
    + apply Forall_app. split; [exact Htb|].
      apply Forall_cons; [|apply Forall_nil].
      cbn [phase procs frontend backend next_pid attempts backend_starts watching status].
      rewrite !filter_app, length_app, H0. cbn. repeat split; auto.
      now rewrite app_nil_r.
    + refine (conj eq_refl (conj _ (conj (conj _ (conj _ _)) _))).
      * intros c Hin Hbk Hl. apply in_app_or in Hin as [Hin|[<-|[]]].
        -- rewrite (Hnl c Hin Hbk) in Hl. discriminate.
        -- split; reflexivity.
      * intros c Hin. apply in_app_or in Hin as [Hin|[<-|[]]]; cbn.
        -- specialize (Hlt2 c Hin). lia.
        -- lia.
      * intros q [Hq|Hq].
        -- injection Hq as <-. lia.
        -- specialize (Hh q (or_intror Hq)). lia.
      * intros c Hin Hfc Heq. apply in_app_or in Hin as [Hin|[<-|[]]].
        -- specialize (Hlt2 c Hin). injection Heq as Heq. lia.
        -- discriminate.
      * rewrite filter_app, length_app, H0. cbn. lia.
    + reflexivity.
    + refine (conj _ (conj _ _)).
      * intros Hin. apply in_map_iff in Hin as (c & Hc & Hin).
        specialize (Hlt c Hin). lia.
      * intros Heq. specialize (Hh _ (or_introl Heq)). lia.
      * intros Heq. specialize (Hh _ (or_intror Heq)). lia.
  - split; [|split; [|split]].
    + apply Forall_app. split; [exact Htb|].
      apply Forall_cons; [|apply Forall_nil].
      cbn [phase procs frontend backend next_pid attempts backend_starts watching status].
      rewrite H0. repeat split; auto.
    + refine (conj eq_refl (conj _ (conj (conj _ (conj _ _)) _))).
      * intros c Hin Hbk Hl. rewrite (Hnl c Hin Hbk) in Hl. discriminate.
      * exact Hlt2.
      * intros q [Hq|Hq]; [discriminate|]. apply Hh. now right.
      * intros c Hin Hfc Heq. discriminate.
      * rewrite H0. lia.
    + reflexivity.
    + reflexivity.
Qed.


Lemma Forall_last_elt (P : Sup -> Prop) (l : list Sup) (d : Sup) :
  Forall P l -> l <> [] -> P (last l d).
Proof.
  intros H Hne. destruct (exists_last Hne) as (l' & x & ->).
  rewrite last_last. apply Forall_app in H as [_ H]. now inversion H.
Qed.

Lemma reload_steps_not_nil (s : Sup) : reload_steps spawn_ok backend_cmd s <> [].
Proof. unfold reload_steps. discriminate. Qed.

(** Any number of reloads. *)
Lemma changes_ok (evs : list FileWatcher.ChangeEvent) (s : Sup) :
  running_ok s ->
  Forall (fun t => live_backends t <= 1 /\ frontends t = frontends s /\
                   frontend t = frontend s)
         (supervise spawn_ok backend_cmd (map Change evs) s) /\
  running_ok (run spawn_ok backend_cmd (map Change evs) s) /\
  backend_starts (run spawn_ok backend_cmd (map Change evs) s) =
    backend_starts s + List.length evs /\
  frontends (run spawn_ok backend_cmd (map Change evs) s) = frontends s /\
  frontend (run spawn_ok backend_cmd (map Change evs) s) = frontend s.
Proof.
  revert s. induction evs as [|ev evs IH]; intros s Hok.
  - cbn. rewrite Nat.add_0_r. refine (conj (Forall_nil _) (conj Hok (conj eq_refl (conj eq_refl eq_refl)))).
  - cbn [map supervise run]. unfold react.
    destruct Hok as (Hph & Hrest). rewrite Hph.
    assert (running_ok s) as Hok by (split; assumption).
    destruct (reload_ok s Hok) as (Hall & Hok' & Hbs & _).
    cbn zeta in *.
    pose proof (Forall_last_elt _ _ s Hall (reload_steps_not_nil s)) as (_ & Hfs & Hf).
    destruct (IH _ Hok') as (Hall' & Hok'' & Hbs' & Hfs' & Hf').
    refine (conj _ (conj Hok'' (conj _ (conj _ _)))).
    + apply Forall_app. split; [exact Hall|].
      eapply Forall_impl; [|exact Hall'].
      intros t (Ht & Ht1 & Ht2). refine (conj Ht (conj _ _)).
      * now rewrite Ht1.
      * now rewrite Ht2.
    + rewrite Hbs', Hbs. cbn. lia.
    + congruence.
    + congruence.
Qed.


(** A startup in which both processes start. *)
Lemma boot_ok :
  spawn_ok 0 = true -> spawn_ok 1 = true ->
  running_ok (booted spawn_ok frontend_cmd backend_cmd) /\
  backend_starts (booted spawn_ok frontend_cmd backend_cmd) = 1 /\
  Forall (fun t => live_backends t <= 1) (boot_steps spawn_ok frontend_cmd backend_cmd) /\
  frontends (booted spawn_ok frontend_cmd backend_cmd) =
    [mkChild FrontendRole frontend_cmd 1 Running] /\
  frontend (booted spawn_ok frontend_cmd backend_cmd) = Some 1.
Proof.
  intros H0 H1.
  unfold booted, boot_steps, start, init. cbn. rewrite H0. cbn. rewrite H1. cbn.
  unfold running_ok, owned, fresh, live_backends, frontends. cbn.
  refine (conj (conj eq_refl (conj _ (conj (conj _ (conj _ _)) _))) (conj eq_refl (conj _ (conj eq_refl eq_refl)))).
  - intros c [<-|[<-|[]]]; cbn; intros; try discriminate. split; reflexivity.
  - intros c [<-|[<-|[]]]; cbn; lia.
  - intros q [Hq|Hq]; injection Hq as <-; lia.
  - intros c [<-|[<-|[]]]; cbn; intros; discriminate.
  - lia.
  - repeat (first [ apply Forall_nil | apply Forall_cons ]); cbn; lia.
Qed.




(** Stopping a process changes no role and no pid. *)
Lemma stop_keeps_dead (p : nat) (ps : list ChildProcess) :
  no_live_backend ps ->
  no_live_backend (signal p ps) /\ no_live_backend (reap p (signal p ps)).
Proof.
  intros H.
  assert (forall c, In c ps -> is_backend c = true ->
            (if Nat.eqb (pid c) p && is_running c then set_state Terminating c else c) = c)
    as Hs.
  { intros c Hin Hb. specialize (H c Hin Hb). unfold live, is_running in *.
    destruct (state c); try discriminate; now rewrite andb_false_r. }
  assert (no_live_backend (signal p ps)) as H1.
  { intros c Hin Hb. unfold signal in Hin. apply in_map_iff in Hin as (c0 & <- & Hin0).
    destruct (is_backend c0) eqn:Hb0.
    - rewrite (Hs c0 Hin0 Hb0). now apply H.
    - exfalso. revert Hb. destruct c0 as [r cmd q st]. unfold is_backend in *; cbn in *.
      destruct (Nat.eqb q p && _); cbn; now rewrite Hb0. }
  split; [exact H1|].
  intros c Hin Hb. unfold reap in Hin. apply in_map_iff in Hin as (c0 & <- & Hin0).
  destruct (is_backend c0) eqn:Hb0.
  - rewrite (H1 c0 Hin0 Hb0), andb_false_r in *. now apply H1.
  - exfalso. revert Hb. destruct c0 as [r cmd q st]. unfold is_backend in *; cbn in *.
    destruct (Nat.eqb q p && _); cbn; now rewrite Hb0.
Qed.

(** The termination of any handle when no backend is live. *)
Lemma stop_with_dead_backend (h : option nat) (t : Sup) :
  no_live_backend (procs t) ->
  Forall (fun u => live_backends u = 0 /\ watching u = watching t)
         (terminate_steps h t) /\
  no_live_backend (procs (last (terminate_steps h t) t)) /\
  watching (last (terminate_steps h t) t) = watching t.
Proof.
  intros H. unfold terminate_steps.
  destruct h as [p|]; [destruct (has_running p (procs t))|];
    cbn [last]; try (split; [apply Forall_nil|split; [exact H|reflexivity]]).
  destruct (stop_keeps_dead p _ H) as [H1 H2].
  split; [|split; [exact H2|reflexivity]].
  apply Forall_cons; [|apply Forall_cons; [|apply Forall_nil]];
    unfold live_backends; cbn [procs watching with_procs];
    (split; [|reflexivity]); now apply live_backends_none.
Qed.

(** The termination of the backend handle, in any phase. *)
Lemma stop_backend_any (t : Sup) :
  owned t -> fresh t -> live_backends t <= 1 ->
  let tb := terminate_steps (backend t) t in
  Forall (fun u => live_backends u <= 1 /\ frontends u = frontends t /\
                   watching u = watching t) tb /\
  no_live_backend (procs (last tb t)) /\
  frontends (last tb t) = frontends t /\
  frontend (last tb t) = frontend t /\
  watching (last tb t) = watching t.
Proof.
  intros Ho Hfr Hle. cbn zeta. unfold terminate_steps, no_live_backend.
  destruct (backend t) as [p|] eqn:Hb.
  - destruct (has_running p (procs t)) eqn:Hr.
    + destruct (stop_frame t p Hfr Hb) as (F1 & F2 & F3).
      cbn [last]. unfold frontends, live_backends.
      cbn [procs frontend watching with_procs].
      repeat (first [ apply Forall_nil | apply Forall_cons | split ]);
        cbn [procs frontend watching with_procs]; auto.
      * now rewrite live_backends_signal.
      * rewrite live_backends_none; [lia|]. now apply reaped_no_live.
      * now apply reaped_no_live.
    + cbn [last]. repeat (first [ apply Forall_nil | split ]); auto.
      apply idle_no_live; auto. now rewrite Hb.
  - cbn [last]. repeat (first [ apply Forall_nil | split ]); auto.
    apply idle_no_live; auto. now rewrite Hb.
Qed.

(** A shutdown, from any state at rest. *)
Lemma shutdown_any (code : Z) (t : Sup) :
  owned t -> fresh t -> live_backends t <= 1 ->
  Forall (fun u => live_backends u <= 1) (shutdown_steps code t) /\
  phase (last (shutdown_steps code t) t) = SupStopped.
Proof.
  intros Ho Hfr Hle. unfold shutdown_steps.
  set (s1 := stop_watching (with_phase SupShuttingDown t)).
  assert (owned s1 /\ fresh s1 /\ live_backends s1 <= 1) as (Ho1 & Hfr1 & Hle1)
    by (split; [exact Ho | split; [exact Hfr | exact Hle]]).
  destruct (stop_backend_any s1 Ho1 Hfr1 Hle1) as (Htb & Hnl & _).
  cbn zeta in Htb, Hnl.
  set (tb := terminate_steps (backend s1) s1) in *.
  set (s2 := last tb s1) in *.
  destruct (stop_with_dead_backend (frontend s2) s2 Hnl) as (Htf & Hnl3 & _).
  set (tf := terminate_steps (frontend s2) s2) in *.
  set (s3 := last tf s2) in *.
  split.
  - apply Forall_app. split; [apply Forall_cons; [exact Hle1|apply Forall_nil]|].
    apply Forall_app. split.
    { eapply Forall_impl; [|exact Htb]. now intros u (Hu & _). }
    apply Forall_app. split.
    { eapply Forall_impl; [|exact Htf]. intros u (Hu & _). lia. }
    apply Forall_cons; [|apply Forall_nil].
    unfold live_backends, stopped. cbn [procs].
    rewrite live_backends_none; [lia|exact Hnl3].
  - change ([s1] ++ tb ++ tf ++ [stopped code s3])
      with ((s1 :: tb) ++ tf ++ [stopped code s3]).
    rewrite !app_assoc. rewrite last_last. reflexivity.
Qed.


(** Any startup, whether the processes can be spawned or not. *)
Lemma boot_any :
  Forall (fun t => live_backends t <= 1) (boot_steps spawn_ok frontend_cmd backend_cmd) /\
  (phase (booted spawn_ok frontend_cmd backend_cmd) = SupRunning ->
   running_ok (booted spawn_ok frontend_cmd backend_cmd)).
Proof.
  destruct (spawn_ok 0) eqn:H0; [destruct (spawn_ok 1) eqn:H1|].
  - destruct (boot_ok H0 H1) as (Hok & _ & Hall & _). split; [exact Hall|now intros _].
  - unfold booted, boot_steps, start, init. cbn. rewrite H0. cbn. rewrite H1. cbn.
    split; [|discriminate].
    repeat (first [ apply Forall_nil | apply Forall_cons ]); cbn; lia.
  - unfold booted, boot_steps, start, init. cbn. rewrite H0. cbn.
    split; [|discriminate].
    repeat (first [ apply Forall_nil | apply Forall_cons ]); cbn; lia.
Qed.

(** Any sequence of change events and interrupts. *)
Lemma any_inputs (inputs : list Input) (s : Sup) :
  (phase s = SupRunning -> running_ok s) ->
  Forall (fun t => live_backends t <= 1) (supervise spawn_ok backend_cmd inputs s).
Proof.
  revert s. induction inputs as [|i inputs IH]; intros s Hs; [apply Forall_nil|].
  cbn [supervise]. apply Forall_app. unfold react.
  destruct (phase s) eqn:Hph;
    try (split; [apply Forall_nil|]; cbn [last]; apply IH; intros Hp; congruence).
  destruct (Hs eq_refl) as (_ & Ho & Hfr & Hle).
  destruct i as [ev|].
  - destruct (reload_ok s (Hs eq_refl)) as (Hall & Hok' & _). cbn zeta in Hok'.
    split.
    + eapply Forall_impl; [|exact Hall]. now intros t (Ht & _).
    + apply IH. now intros _.
  - destruct (shutdown_any 0 s Ho Hfr Hle) as (Hall & Hstop).
    split; [exact Hall|]. apply IH. intros Hp. congruence.
Qed.

(** The termination of a handle starts nothing. *)
Lemma terminate_keeps_counts (h : option nat) (t : Sup) :
  backends_started (last (terminate_steps h t) t) = backends_started t /\
  attempts (last (terminate_steps h t) t) = attempts t /\
  watching (last (terminate_steps h t) t) = watching t.
Proof.
  unfold terminate_steps.
  destruct h as [p|]; [destruct (has_running p (procs t))|];
    cbn [last]; try (repeat split; reflexivity).
  unfold backends_started. cbn [procs attempts watching with_procs].
  split; [|split; reflexivity].
  unfold reap, signal. rewrite map_map. apply count_after_map.
  intros [r cmd q st]. unfold is_backend, is_running, live, set_state; cbn.
  destruct st; destruct (Nat.eqb q p) eqn:E; cbn; rewrite ?E; reflexivity.
Qed.

(** What one reload starts. *)
Lemma reload_counts (s : Sup) :
  let s' := last (reload_steps spawn_ok backend_cmd s) s in
  attempts s' = S (attempts s) /\
  backends_started s' =
    backends_started s + (if spawn_ok (attempts s) then 1 else 0) /\
  watching s' = watching s.
Proof.
  cbn zeta. unfold reload_steps.
  set (s1 := with_phase SupReloading s).
  destruct (terminate_keeps_counts (backend s1) s1) as (Hb & Ha & Hw).
  set (tb := terminate_steps (backend s1) s1) in *.
  set (s2 := last tb s1) in *.
  change ([s1] ++ tb ++ [with_phase SupRunning (start spawn_ok BackendRole backend_cmd s2)])
    with ((s1 :: tb) ++ [with_phase SupRunning (start spawn_ok BackendRole backend_cmd s2)]).
  rewrite last_last.
  unfold start, with_phase, backends_started in *.
  cbn [phase procs frontend backend next_pid attempts backend_starts watching status] in *.
  rewrite Ha, Hw.
  change (attempts s1) with (attempts s) in *.
  change (watching s1) with (watching s) in *.
  change (procs s1) with (procs s) in *.
  destruct (spawn_ok (attempts s)); cbv iota.
  - rewrite filter_app, length_app, Hb. cbn. repeat split; lia.
  - rewrite Hb. repeat split; lia.
Qed.

(** What any number of reloads start. *)
Lemma changes_count (evs : list FileWatcher.ChangeEvent) (s : Sup) :
  running_ok s ->
  attempts (run spawn_ok backend_cmd (map Change evs) s) =
    attempts s + List.length evs /\
  backends_started (run spawn_ok backend_cmd (map Change evs) s) =
    backends_started s + spawned_among spawn_ok (attempts s) (List.length evs) /\
  watching (run spawn_ok backend_cmd (map Change evs) s) = watching s.
Proof.
  revert s. induction evs as [|ev evs IH]; intros s Hok.
  - cbn. unfold spawned_among. cbn. repeat split; lia.
  - cbn [map run]. unfold react.
    destruct Hok as (Hph & Hrest). rewrite Hph.
    assert (running_ok s) as Hok by (split; assumption).
    destruct (reload_ok s Hok) as (_ & Hok' & _). cbn zeta in Hok'.
    destruct (reload_counts s) as (Ha & Hb & Hw). cbn zeta in Ha, Hb, Hw.
    destruct (IH _ Hok') as (Ha' & Hb' & Hw').
    rewrite Ha', Hb', Hw', Ha, Hb, Hw.
    unfold spawned_among. cbn [List.length seq filter].
    destruct (spawn_ok (attempts s)); cbn [List.length]; repeat split; lia.
Qed.

Lemma spawned_all (n k : nat) :
  (forall i, spawn_ok i = true) -> spawned_among spawn_ok n k = k.
Proof.
  intros H. unfold spawned_among. revert n.
  induction k as [|k IH]; intros n; [reflexivity|].
  cbn [seq filter]. rewrite H. cbn. now rewrite IH.
Qed.


(** C1, amended: in the Supervisor of the specification, in every
    execution (any outcome of startup, any sequence of change events and
    interrupts) at most one backend process is Running or Terminating in
    every state passed through. When both processes start, after N change
    events delivered while Running, [start] has been called N + 1 times
    on the backend, and the backend process has been started once for the
    first start plus once for each restart that could be spawned: exactly
    N + 1 times when no spawn fails. *)
Theorem backend_starts_and_exclusion :
  (forall inputs,
     Forall (fun t => live_backends t <= 1)
            (boot_steps spawn_ok frontend_cmd backend_cmd ++
             supervise spawn_ok backend_cmd inputs
                       (booted spawn_ok frontend_cmd backend_cmd)))
  /\ (forall evs : list FileWatcher.ChangeEvent,
        spawn_ok 0 = true -> spawn_ok 1 = true ->
        phase (booted spawn_ok frontend_cmd backend_cmd) = SupRunning /\
        backend_starts (after spawn_ok frontend_cmd backend_cmd (map Change evs)) =
          List.length evs + 1 /\
        backends_started (after spawn_ok frontend_cmd backend_cmd (map Change evs)) =
          1 + spawned_among spawn_ok 2 (List.length evs))
  /\ (forall evs : list FileWatcher.ChangeEvent,
        (forall n, spawn_ok n = true) ->
        backends_started (after spawn_ok frontend_cmd backend_cmd (map Change evs)) =
          List.length evs + 1).
Proof.
  assert (forall evs : list FileWatcher.ChangeEvent,
            spawn_ok 0 = true -> spawn_ok 1 = true ->
            phase (booted spawn_ok frontend_cmd backend_cmd) = SupRunning /\
            backend_starts (after spawn_ok frontend_cmd backend_cmd (map Change evs)) =
              List.length evs + 1 /\
            backends_started (after spawn_ok frontend_cmd backend_cmd (map Change evs)) =
              1 + spawned_among spawn_ok 2 (List.length evs)) as Hcount.
  { intros evs H0 H1.
    destruct (boot_ok H0 H1) as (Hok & Hbs & _).
    destruct (changes_ok evs _ Hok) as (_ & _ & Hn & _).
    destruct (changes_count evs _ Hok) as (_ & Hb & _).
    refine (conj _ (conj _ _)).
    - apply Hok.
    - unfold after. rewrite Hn, Hbs. lia.
    - unfold after. rewrite Hb.
      unfold booted, boot_steps, start, init. cbn. rewrite H0. cbn. rewrite H1. cbn.
      reflexivity. }
  refine (conj _ (conj Hcount _)).
  - intros inputs. destruct boot_any as (Hboot & Hrun).
    apply Forall_app. split; [exact Hboot|]. now apply any_inputs.
  - intros evs Hall.
    destruct (Hcount evs (Hall 0) (Hall 1)) as (_ & _ & ->).
    rewrite spawned_all by assumption. lia.
Qed.




End SupervisorFacts.

Section WatcherFacts.
Import FileWatcher.
Local Open Scope list_scope.
Local Open Scope Z_scope.

(** A burst whose modifications all fall in the window is one event. *)
Lemma debounce_one (window t0 : Z) (paths : list string) (ms : list Modification) :
  Forall (fun m => t0 <= mtime m <= t0 + window) ms ->
  debounce window t0 paths ms = [mkChangeEvent (t0 + window) (paths ++ map mpath ms)].
Proof.
  revert paths. induction ms as [|m ms IH]; intros paths H; cbn.
  - now rewrite app_nil_r.
  - inversion H as [|? ? Hm Hms]; subst.
    destruct (Z.leb_spec (mtime m) (t0 + window)) as [_|Hgt]; [|lia].
    rewrite IH by assumption. now rewrite <- app_assoc.
Qed.

(** Modifications more than a window apart are one event each. *)
Lemma debounce_each (window t0 : Z) (paths : list string) (ms : list Modification) :
  spaced window t0 ms ->
  debounce window t0 paths ms =
    mkChangeEvent (t0 + window) paths
      :: map (fun m => mkChangeEvent (mtime m + window) [mpath m]) ms.
Proof.
  revert t0 paths. induction ms as [|m ms IH]; intros t0 paths H; cbn; [reflexivity|].
  destruct H as [Hgt Hsp].
  destruct (Z.leb_spec (mtime m) (t0 + window)) as [Hle|_]; [lia|].
  now rewrite IH.
Qed.

(** C8: in the FileWatcher of the specification, N >= 1 modifications
    that all fall within the window opened by the first one give exactly
    one event, which carries all their paths; N modifications each more
    than a window after the one before give exactly N events, one per
    modification. *)
Theorem debounce_counts (window : Z) (m : Modification) (ms : list Modification) :
  (within_window window (mtime m) ms ->
   watch window (m :: ms) =
     [mkChangeEvent (mtime m + window) (map mpath (m :: ms))]
   /\ List.length (watch window (m :: ms)) = 1%nat)
  /\ (spaced window (mtime m) ms ->
      watch window (m :: ms) =
        map (fun m => mkChangeEvent (mtime m + window) [mpath m]) (m :: ms)
      /\ List.length (watch window (m :: ms)) = List.length (m :: ms)).
Proof.
  split; intros H; unfold watch.
  - rewrite (debounce_one _ _ _ _ H). split; reflexivity.
  - rewrite (debounce_each _ _ _ _ H). split; [reflexivity|].
    cbn. now rewrite length_map.
Qed.

End WatcherFacts.

Section Scenarios.
Import Supervisor FileWatcher Samples.
Local Open Scope list_scope.


Example two_reloads :
  let s := after always_spawns vite api (map Change [save1; save2]) in
  backend s = Some 4 /\ frontend s = Some 1 /\ backend_starts s = 3 /\
  map state (procs s) = [Running; Exited; Exited; Running].
Proof. repeat split. Qed.

Example failed_restart_is_retried :
  let s1 := after third_start_fails vite api (map Change [save1]) in
  let s2 := after third_start_fails vite api (map Change [save1; save2]) in
  backend s1 = None /\ phase s1 = SupRunning /\ live_backends s1 = 0 /\
  backend s2 = Some 3 /\ backend_starts s2 = 3 /\ live_backends s2 = 1.
Proof. repeat split. Qed.



Lemma debounce_counts_witness :
  List.length (watch 50 [write 0 "a.py"; write 10 "b.py"; write 50 "a.py"]) = 1 /\
  List.length (watch 50 [write 0 "a.py"; write 51 "b.py"; write 200 "a.py"]) = 3.
Proof.
  split.
  - apply (debounce_counts 50 (write 0 "a.py") [write 10 "b.py"; write 50 "a.py"]).
    repeat constructor; cbn; lia.
  - apply (debounce_counts 50 (write 0 "a.py") [write 51 "b.py"; write 200 "a.py"]).
    cbn. lia.
Defined.


(** C1, as stated: the backend would be started exactly N + 1 times. When
    only the two starts of startup can be spawned, the supervisor is
    Running and after three change events [start] was called four times on
    the backend, but one backend process was ever started and none is
    left. *)
Lemma backend_starts_counterexample :
  phase (booted boot_only vite api) = SupRunning /\
  backend_starts (after boot_only vite api (map Change [save1; save2; save3])) = 3 + 1 /\
  backends_started (after boot_only vite api (map Change [save1; save2; save3])) = 1 /\
  backends_started (after boot_only vite api (map Change [save1; save2; save3]))
    <> List.length [save1; save2; save3] + 1 /\
  backend (after boot_only vite api (map Change [save1; save2; save3])) = None.
Proof. repeat split. cbn. discriminate. Qed.

Lemma backend_starts_and_exclusion_witness :
  Forall (fun t => live_backends t <= 1)
         (boot_steps third_start_fails vite api ++
          supervise third_start_fails api [Change save1; Interrupt; Change save2]
                    (booted third_start_fails vite api)) /\
  (phase (booted third_start_fails vite api) = SupRunning /\
   backend_starts (after third_start_fails vite api (map Change [save1; save2])) = 2 + 1 /\
   backends_started (after third_start_fails vite api (map Change [save1; save2])) =
     1 + spawned_among third_start_fails 2 2) /\
  backends_started (after always_spawns vite api (map Change [save1; save2])) = 2 + 1.
Proof.
  split; [|split].
  - apply (backend_starts_and_exclusion third_start_fails vite api).
  - apply (backend_starts_and_exclusion third_start_fails vite api); reflexivity.
  - apply (backend_starts_and_exclusion always_spawns vite api). reflexivity.
Defined.



End Scenarios.
